(** * A shallow embedding of the covasim calibration and scenario scripts

    The two scripts [examples/t7_optuna_calibration.py] and
    [my_countries/ZIM/run_ZIM.py] are orchestration code: they build
    dictionaries and hand them to covasim, optuna, sciris and the os module.
    The model keeps the code's own logic (dictionary construction and lookup,
    truth tests, keyword merging, the order of every call) and treats every
    call into a library as an event answered by an environment: an
    [oracle] that sees the history of previous calls and their answers and
    returns either a value or a raised exception.

    A computation of the scripts is a function from the history so far to
    the extended history and a result: a Python exception ([inl]) or a
    value ([inr]).  Python floats are modelled as rationals [Q]; the code only
    passes them through. *)

From Stdlib Require Import String List ZArith QArith Bool Lia.
Import ListNotations.
Open Scope string_scope.
Set Warnings "-register-all".

(** ** Python values *)

Inductive pyval : Type :=
| PNone
| PBool (b : bool)
| PInt (z : Z)
| PFloat (q : Q)
| PStr (s : string)
| PRange (n : Z)                       (* range(n) *)
| PList (l : list pyval)
| PDict (d : list (string * pyval))    (* a dict with string keys, in insertion order *)
| PFun (fname : string)                (* a function of the script passed by reference *)
| PObj (id : nat).                     (* an object created by a library *)

(** A raised Python exception: its class name and its arguments. *)
Record exn := PyExn { exn_class : string; exn_args : list pyval }.

Definition KeyError (k : string) : exn := PyExn "KeyError" [PStr k].
Definition TypeError (msg : string) : exn := PyExn "TypeError" [PStr msg].

(** ** Calls into the libraries *)

Inductive call : Type :=
| CCall (fn : string) (args : list pyval) (kwargs : list (string * pyval))
                                       (* module function: print, cv.Sim, os.remove, ... *)
| CMeth (obj : pyval) (meth : string) (args : list pyval) (kwargs : list (string * pyval))
| CGetAttr (obj : pyval) (attr : string)
| CSetAttr (obj : pyval) (attr : string) (v : pyval)
| CGetItem (obj : pyval) (key : pyval).

Definition answer : Type := (exn + pyval)%type.
Definition hist : Type := list (call * answer).

(** ** The computation monad: history in, history and result out *)

Definition M (A : Type) : Type := hist -> hist * (exn + A).

Definition ret {A} (x : A) : M A := fun h => (h, inr x).
Definition raise {A} (e : exn) : M A := fun h => (h, inl e).
Definition bind {A B} (m : M A) (k : A -> M B) : M B :=
  fun h => match m h with
           | (h1, inl e) => (h1, inl e)
           | (h1, inr x) => k x h1
           end.

Notation "x <- m ;; k" := (bind m (fun x => k))
  (at level 61, m at next level, right associativity).

(** Python dictionaries: lookup of the first binding, and [d[k] = v]
    (overwrite in place if the key is present, append otherwise). *)
Fixpoint dict_get (d : list (string * pyval)) (k : string) : option pyval :=
  match d with
  | [] => None
  | (k', v) :: d' => if String.eqb k k' then Some v else dict_get d' k
  end.

Fixpoint dict_set (d : list (string * pyval)) (k : string) (v : pyval)
  : list (string * pyval) :=
  match d with
  | [] => [(k, v)]
  | (k', v') :: d' =>
      if String.eqb k k' then (k, v) :: d' else (k', v') :: dict_set d' k v
  end.

(** The elements [range(n)] iterates over: 0, 1, ..., n-1. *)
Definition range_iter (n : Z) : list Z := map Z.of_nat (seq 0 (Z.to_nat n)).

(** Module-level settings of the calibration script (lines 65-69). *)
Record settings := {
  n_workers : Z;
  n_trials : Z;
  name : string;
  db_name : string;
  storage : string
}.

Definition make_settings (nm : string) : settings :=
  let db := nm ++ ".db" in                        (* f'{name}.db' *)
  {| n_workers := 4;
     n_trials := 25;
     name := nm;
     db_name := db;
     storage := "sqlite:///" ++ db |}.            (* f'sqlite:///{db_name}' *)

Definition main_settings : settings := make_settings "my-example-calibration".

Definition datafile_path : string :=
  "/home/cliffk/idm/covasim/docs/tutorials/example_data.csv".

Section Script.

(** The libraries and the rest of the Python runtime. *)
Variable oracle : hist -> call -> answer.

(** One library call: ask the environment, record the call and its answer;
    an exception raised by the library is returned unchanged. *)
Definition ext (c : call) : M pyval :=
  fun h => let a := oracle h c in (app h [(c, a)], a).

(** [o[k]] with a string key: a dict is looked up by the interpreter itself;
    any other object's [__getitem__] belongs to a library. *)
Definition getitem (o : pyval) (k : string) : M pyval :=
  match o with
  | PDict d =>
      match dict_get d k with
      | Some v => ret v
      | None => raise (KeyError k)
      end
  | PNone | PBool _ | PInt _ | PFloat _ | PRange _ | PFun _ =>
      raise (TypeError "object is not subscriptable")
  | PStr _ | PList _ => raise (TypeError "indices must be integers")
  | PObj _ => ext (CGetItem o (PStr k))
  end.

Definition list_nonempty {A} (l : list A) : bool :=
  match l with [] => false | _ => true end.

(** Truth value of [if v:]; a library object decides through [__bool__]. *)
Definition truth (v : pyval) : M bool :=
  match v with
  | PNone => ret false
  | PBool b => ret b
  | PInt z => ret (negb (Z.eqb z 0))
  | PFloat q => ret (negb (Qeq_bool q 0))
  | PStr s => ret (negb (String.eqb s ""))
  | PRange n => ret (Z.ltb 0 n)
  | PList l => ret (list_nonempty l)
  | PDict d => ret (list_nonempty d)
  | PFun _ => ret true
  | PObj _ =>
      r <- ext (CMeth v "__bool__" [] []) ;;
      match r with
      | PBool b => ret b
      | _ => raise (TypeError "__bool__ should return bool")
      end
  end.

(** ** t7_optuna_calibration.py *)

(** [run_sim(pars, label=None, return_sim=False)], lines 11-28.  The
    f-string of the print is passed as its parts. *)
Definition run_sim (pars label return_sim : pyval) : M pyval :=
  b <- getitem pars "beta" ;;
  r <- getitem pars "rel_death_prob" ;;
  _ <- ext (CCall "print" [PStr "Running sim for beta="; b;
                          PStr ", rel_death_prob="; r] []) ;;
  (* pars = dict(start_day=..., ...): arguments in order *)
  beta <- getitem pars "beta" ;;
  rel_death_prob <- getitem pars "rel_death_prob" ;;
  interventions <- ext (CCall "cv.test_num" [] [("daily_tests", PStr "data")]) ;;
  let pars' := PDict [("start_day", PStr "2020-02-01");
                      ("end_day", PStr "2020-04-11");
                      ("beta", beta);
                      ("rel_death_prob", rel_death_prob);
                      ("interventions", interventions);
                      ("verbose", PInt 0)] in
  sim <- ext (CCall "cv.Sim" [] [("pars", pars');
                                 ("datafile", PStr datafile_path);
                                 ("label", label)]) ;;
  _ <- ext (CMeth sim "run" [] []) ;;
  fit <- ext (CMeth sim "compute_fit" [] []) ;;
  t <- truth return_sim ;;
  if t then ret sim else ext (CGetAttr fit "mismatch").

(** [run_trial(trial)], lines 31-37. *)
Definition run_trial (trial : pyval) : M pyval :=
  let pars := [] in
  xb <- ext (CMeth trial "suggest_uniform"
               [PStr "beta"; PFloat (Qmake 5 1000); PFloat (Qmake 20 1000)] []) ;;
  let pars := dict_set pars "beta" xb in
  xr <- ext (CMeth trial "suggest_uniform"
               [PStr "rel_death_prob"; PFloat (Qmake 5 10); PFloat (Qmake 3 1)] []) ;;
  let pars := dict_set pars "rel_death_prob" xr in
  mismatch <- run_sim (PDict pars) PNone (PBool false) ;;
  ret mismatch.

(** The optuna objective [run_trial] and the sciris worker [worker] are
    handed to the libraries by reference ([PFun]); what the libraries do
    with them is part of the libraries' answer. *)

(** [worker()], lines 40-44; the globals [storage], [name] and [n_trials]
    come from [cfg]. *)
Definition worker (cfg : settings) : M pyval :=
  study <- ext (CCall "op.load_study" [] [("storage", PStr (storage cfg));
                                          ("study_name", PStr (name cfg))]) ;;
  output <- ext (CMeth study "optimize" [PFun "run_trial"]
                   [("n_trials", PInt (n_trials cfg))]) ;;
  ret output.

(** [run_workers()], lines 47-50. *)
Definition run_workers (cfg : settings) : M pyval :=
  output <- ext (CCall "sc.parallelize" [PFun "worker"; PInt (n_workers cfg)] []) ;;
  ret output.

(** [make_study()], lines 53-59. *)
Definition make_study (cfg : settings) : M pyval :=
  ex <- ext (CCall "os.path.exists" [PStr (db_name cfg)] []) ;;
  t <- truth ex ;;
  _ <- (if t then
          _ <- ext (CCall "os.remove" [PStr (db_name cfg)] []) ;;
          _ <- ext (CCall "print" [PStr "Removed existing calibration ";
                                  PStr (db_name cfg)] []) ;;
          ret PNone
        else ret PNone) ;;
  output <- ext (CCall "op.create_study" [] [("storage", PStr (storage cfg));
                                             ("study_name", PStr (name cfg))]) ;;
  ret output.

(** The [__main__] block, lines 62-85. *)
Definition main_calib : M unit :=
  let cfg := main_settings in
  t0 <- ext (CCall "sc.tic" [] []) ;;
  _ <- make_study cfg ;;
  _ <- run_workers cfg ;;
  study <- ext (CCall "op.load_study" [] [("storage", PStr (storage cfg));
                                          ("study_name", PStr (name cfg))]) ;;
  best_pars <- ext (CGetAttr study "best_params") ;;
  T <- ext (CCall "sc.toc" [t0] [("output", PBool true)]) ;;
  _ <- ext (CCall "print" [PStr "Output: "; best_pars; PStr ", time: "; T] []) ;;
  let initial_pars := PDict [("beta", PFloat (Qmake 15 1000));
                             ("rel_death_prob", PFloat (Qmake 1 1))] in
  before <- run_sim initial_pars (PStr "Before calibration") (PBool true) ;;
  after <- run_sim best_pars (PStr "After calibration") (PBool true) ;;
  msim <- ext (CCall "cv.MultiSim" [PList [before; after]] []) ;;
  _ <- ext (CMeth msim "plot" [] [("to_plot", PList [PStr "cum_tests";
                                                   PStr "cum_diagnoses";
                                                   PStr "cum_deaths"])]) ;;
  ret tt.

(** ** run_ZIM.py *)

(** Python's call with explicit keyword arguments followed by [**extra]: a
    key given twice is a [TypeError] raised before the callee runs. *)
Definition call_kwargs (explicit extra : list (string * pyval))
  : M (list (string * pyval)) :=
  match find (fun kv => existsb (String.eqb (fst kv)) (map fst explicit)) extra with
  | Some (k, _) =>
      raise (TypeError ("got multiple values for keyword argument '" ++ k ++ "'"))
  | None => ret (app explicit extra)
  end.

(** [run_msim(func, n_runs, label, **kwargs)], lines 10-16.  [n_runs] is an
    int; [kwargs] holds the extra keyword arguments (Python binds [func],
    [n_runs] and [label] to the named parameters, so they never occur in it). *)
Definition run_msim (func : pyval) (n_runs : Z) (label : pyval)
           (kwargs : list (string * pyval)) : M pyval :=
  kw <- call_kwargs [("func", func);
                     ("iterkwargs", PDict [("seed", PRange n_runs)])] kwargs ;;
  sims <- ext (CCall "sc.parallelize" [] kw) ;;
  msim <- ext (CCall "cv.MultiSim" [sims] [("label", label);
                                           ("keep_people", PBool true)]) ;;
  _ <- ext (CMeth msim "run" [] [("keep_people", PBool true)]) ;;
  _ <- ext (CMeth msim "median" [] []) ;;
  (* msim.sims[0].label = label *)
  s <- ext (CGetAttr msim "sims") ;;
  s0 <- ext (CGetItem s (PInt 0)) ;;
  _ <- ext (CSetAttr s0 "label" label) ;;
  ret msim.

(** [msim.sims[0].people.<attr>] (run_ZIM.py, lines 67-70). *)
Definition sim0_people_attr (m : pyval) (attr : string) : M pyval :=
  s <- ext (CGetAttr m "sims") ;;
  s0 <- ext (CGetItem s (PInt 0)) ;;
  p <- ext (CGetAttr s0 "people") ;;
  ext (CGetAttr p attr).

(** [df.groupby('age')[col].<agg>().plot.bar(...)] with the keyword
    arguments [kw] (run_ZIM.py, lines 75-95). *)
Definition plot_column (df : pyval) (col agg : string)
           (kw : list (string * pyval)) : M pyval :=
  g <- ext (CMeth df "groupby" [PStr "age"] []) ;;
  c <- getitem g col ;;
  a <- ext (CMeth c agg [] []) ;;
  p <- ext (CGetAttr a "plot") ;;
  ext (CMeth p "bar" [] kw).

(** The [__main__] block of run_ZIM.py, lines 18-96. *)
Definition main_zim : M unit :=
  let n_runs := 2%Z in
  let location := PStr "ZIM" in
  let iterkwargs := PDict [("seed", PRange n_runs)] in
  msim <- run_msim (PFun "who.get_vaccine_schedule_scenario_sim") n_runs
            (PStr "baseline vaccination")
            [("location", PStr "ZIM"); ("end_date", PStr "2021-06-30")] ;;
  msim2 <- run_msim (PFun "who.get_vaccine_schedule_scenario_sim") n_runs
             (PStr "vulnerable")
             [("location", PStr "ZIM"); ("end_date", PStr "2021-06-30");
              ("people_per_day", PInt 10000);
              ("vaccine_sequence_function", PFun "get_vaccine_sequence_strategy");
              ("strat_string", PStr "vulnerable")] ;;
  msim3 <- run_msim (PFun "who.get_vaccine_schedule_scenario_sim") n_runs
             (PStr "high contacts")
             [("location", PStr "ZIM"); ("end_date", PStr "2021-06-30");
              ("people_per_day", PInt 10000);
              ("vaccine_sequence_function", PFun "get_vaccine_sequence_strategy");
              ("strat_string", PStr "hcontacts")] ;;
  let msims := PList [msim; msim2; msim3] in
  merged <- ext (CCall "cv.MultiSim.merge" [msims] [("base", PBool true)]) ;;
  _ <- ext (CMeth merged "plot" []
              [("to_plot", PList [PStr "new_infections"; PStr "cum_infections";
                                  PStr "new_diagnoses"; PStr "cum_diagnoses";
                                  PStr "cum_deaths"; PStr "new_vaccinated"]);
               ("color_by_sim", PBool true)]) ;;
  age <- sim0_people_attr msim "age" ;;
  baseline <- sim0_people_attr msim "vaccinated" ;;
  scen1 <- sim0_people_attr msim2 "vaccinated" ;;
  scen2 <- sim0_people_attr msim3 "vaccinated" ;;
  df <- ext (CCall "pd.DataFrame" [PDict [("age", age); ("baseline", baseline);
                                          ("scen1", scen1); ("scen2", scen2)]] []) ;;
  _ <- ext (CCall "plt.figure" [] []) ;;
  _ <- plot_column df "baseline" "count" [] ;;
  _ <- plot_column df "baseline" "sum" [("color", PStr "r")] ;;
  _ <- ext (CCall "plt.title" [PStr "No additional vaccines"] []) ;;
  _ <- ext (CCall "plt.figure" [] []) ;;
  _ <- plot_column df "scen1" "count" [] ;;
  _ <- plot_column df "scen1" "sum" [("color", PStr "r")] ;;
  _ <- ext (CCall "plt.title" [PStr "vulnerable"] []) ;;
  _ <- ext (CCall "plt.figure" [] []) ;;
  _ <- plot_column df "scen2" "count" [] ;;
  _ <- plot_column df "scen2" "sum" [("color", PStr "r")] ;;
  _ <- ext (CCall "plt.title" [PStr "high contacts"] []) ;;
  ret tt.

End Script.

(** ** Properties of computations *)

(** The libraries raise nothing. *)
Definition no_raise (oracle : hist -> call -> answer) : Prop :=
  forall h c, exists v, oracle h c = inr v.

(** A computation appends to the history, and an exception answered by a
    library ends it: nothing is called afterwards and the computation raises
    that very exception. *)
Definition transparent {A} (m : M A) : Prop :=
  forall h, exists new,
    fst (m h) = app h new /\
    forall pre c e post, new = app pre ((c, inl e) :: post) ->
                         post = [] /\ snd (m h) = inl e.

(** Every call a computation makes satisfies [P]. *)
Definition only_calls {A} (P : call -> Prop) (m : M A) : Prop :=
  forall h, exists new,
    fst (m h) = app h new /\ forall c a, In (c, a) new -> P c.

(** Calls that destroy or mutate an existing object: deleting a file, or
    assigning an attribute. *)
Definition mutating (c : call) : bool :=
  match c with
  | CCall fn _ _ => String.eqb fn "os.remove"
  | CSetAttr _ _ _ => true
  | _ => false
  end.

(** A library that raises nothing: [os.path.exists] says [True], a
    [suggest_uniform(name, low, high)] answers [low], every other call
    returns a fresh object. *)
Definition demo_oracle (h : hist) (c : call) : answer :=
  match c with
  | CCall fn _ _ =>
      if String.eqb fn "os.path.exists" then inr (PBool true)
      else inr (PObj (length h))
  | CMeth _ m [_; PFloat lo; _] _ =>
      if String.eqb m "suggest_uniform" then inr (PFloat lo)
      else inr (PObj (length h))
  | _ => inr (PObj (length h))
  end.

(** [demo_oracle], except that a study's [best_params] is the dict
    [best]. *)
Definition calib_oracle (best : list (string * pyval)) (h : hist) (c : call) : answer :=
  match c with
  | CGetAttr _ a =>
      if String.eqb a "best_params" then inr (PDict best) else demo_oracle h c
  | _ => demo_oracle h c
  end.

(** The dict [{'beta': 0.012, 'rel_death_prob': 1.5}]. *)
Definition demo_best : list (string * pyval) :=
  [("beta", PFloat (Qmake 12 1000)); ("rel_death_prob", PFloat (Qmake 3 2))].

(** ** General lemmas on the monad *)

Section Laws.

Variable oracle : hist -> call -> answer.

Lemma split_error {X} (pre post n1 n2 : list X) (a : X) :
  app pre (a :: post) = app n1 n2 ->
  (exists l, n1 = app pre (a :: l)) \/ (exists l, n2 = app l (a :: post)).
Proof.
  intro E. apply app_eq_app in E as [l [[E1 E2] | [E1 E2]]].
  - right. exists l. rewrite E2. reflexivity.
  - destruct l as [| b l].
    + right. exists []. simpl in E2 |- *. rewrite E2. reflexivity.
    + simpl in E2. injection E2 as -> ->. left. exists l. exact E1.
Qed.

Lemma ret_tr {A} (x : A) : transparent (ret x).
Proof.
  intro h. exists []. rewrite app_nil_r. split; [reflexivity |].
  intros pre c e post E. destruct pre; discriminate.
Qed.

Lemma raise_tr {A} (e : exn) : transparent (@raise A e).
Proof.
  intro h. exists []. rewrite app_nil_r. split; [reflexivity |].
  intros pre c e' post E. destruct pre; discriminate.
Qed.

Lemma ext_tr (c : call) : transparent (ext oracle c).
Proof.
  intro h. exists [(c, oracle h c)]. split; [reflexivity |].
  intros pre c' e post E. unfold ext; simpl.
  destruct pre as [| p pre]; simpl in E.
  - injection E as _ Ea Ep. split; [symmetry; exact Ep | exact Ea].
  - injection E as _ E. destruct pre; discriminate.
Qed.

Lemma bind_tr {A B} (m : M A) (k : A -> M B) :
  transparent m -> (forall x, transparent (k x)) -> transparent (bind m k).
Proof.
  intros Hm Hk h. destruct (Hm h) as [n1 [E1 F1]]. unfold bind.
  destruct (m h) as [h1 [e | x]] eqn:Em; simpl in E1, F1 |- *.
  - exists n1. split; [exact E1 |].
    intros pre c e' post E. destruct (F1 pre c e' post E) as [Hp He].
    injection He as ->. split; [exact Hp | reflexivity].
  - destruct (Hk x h1) as [n2 [E2 F2]]. exists (app n1 n2). split.
    + rewrite E2, E1. apply eq_sym, app_assoc.
    + intros pre c e post E.
      destruct (split_error pre post n1 n2 (c, inl e) (eq_sym E)) as [[l El] | [l El]].
      * destruct (F1 pre c e l El) as [_ Hc]. discriminate Hc.
      * exact (F2 l c e post El).
Qed.

Lemma getitem_tr (o : pyval) (k : string) : transparent (getitem oracle o k).
Proof.
  destruct o; simpl; try apply raise_tr; try apply ext_tr.
  destruct (dict_get d k); [apply ret_tr | apply raise_tr].
Qed.

Lemma truth_tr (v : pyval) : transparent (truth oracle v).
Proof.
  destruct v; simpl; try apply ret_tr.
  apply bind_tr; [apply ext_tr |].
  intros [] ; first [apply ret_tr | apply raise_tr].
Qed.

Lemma call_kwargs_tr (ex extra : list (string * pyval)) :
  transparent (call_kwargs ex extra).
Proof.
  unfold call_kwargs. destruct (find _ extra) as [[k v] |];
    [apply raise_tr | apply ret_tr].
Qed.

(** The same closure properties for [only_calls]. *)

Lemma ret_only {A} (P : call -> Prop) (x : A) : only_calls P (ret x).
Proof.
  intro h. exists []. rewrite app_nil_r. split; [reflexivity | intros c a []].
Qed.

Lemma raise_only {A} (P : call -> Prop) (e : exn) : only_calls P (@raise A e).
Proof.
  intro h. exists []. rewrite app_nil_r. split; [reflexivity | intros c a []].
Qed.

Lemma ext_only (P : call -> Prop) (c : call) : P c -> only_calls P (ext oracle c).
Proof.
  intros Hc h. exists [(c, oracle h c)]. split; [reflexivity |].
  intros c' a [E | []]. injection E as -> _. exact Hc.
Qed.

Lemma bind_only {A B} (P : call -> Prop) (m : M A) (k : A -> M B) :
  only_calls P m -> (forall x, only_calls P (k x)) -> only_calls P (bind m k).
Proof.
  intros Hm Hk h. destruct (Hm h) as [n1 [E1 F1]]. unfold bind.
  destruct (m h) as [h1 [e | x]] eqn:Em; simpl in E1 |- *.
  - exists n1. split; [exact E1 | exact F1].
  - destruct (Hk x h1) as [n2 [E2 F2]]. exists (app n1 n2). split.
    + rewrite E2, E1. apply eq_sym, app_assoc.
    + intros c a Hin. apply in_app_or in Hin as [Hin | Hin]; eauto.
Qed.

Lemma getitem_only (P : call -> Prop) (o : pyval) (k : string) :
  (forall i, P (CGetItem (PObj i) (PStr k))) -> only_calls P (getitem oracle o k).
Proof.
  intro HP. destruct o; simpl; try apply raise_only.
  - destruct (dict_get d k); [apply ret_only | apply raise_only].
  - apply ext_only, HP.
Qed.

Lemma truth_only (P : call -> Prop) (v : pyval) :
  (forall i, P (CMeth (PObj i) "__bool__" [] [])) -> only_calls P (truth oracle v).
Proof.
  intro HP. destruct v; simpl; try apply ret_only.
  apply bind_only; [apply ext_only, HP |].
  intros []; first [apply ret_only | apply raise_only].
Qed.

Lemma call_kwargs_only (P : call -> Prop) (ex extra : list (string * pyval)) :
  only_calls P (call_kwargs ex extra).
Proof.
  unfold call_kwargs. destruct (find _ extra) as [[k v] |];
    [apply raise_only | apply ret_only].
Qed.

End Laws.

Lemma bind_ret {A B} (x : A) (k : A -> M B) : bind (ret x) k = k x.
Proof. reflexivity. Qed.

Lemma bind_raise {A B} (e : exn) (k : A -> M B) : bind (raise e) k = raise e.
Proof. reflexivity. Qed.

Lemma getitem_dict oracle d k v :
  dict_get d k = Some v -> getitem oracle (PDict d) k = ret v.
Proof. intro E. simpl. rewrite E. reflexivity. Qed.

Lemma getitem_dict_none oracle d k :
  dict_get d k = None -> getitem oracle (PDict d) k = raise (KeyError k).
Proof. intro E. simpl. rewrite E. reflexivity. Qed.

Ltac tr_auto :=
  repeat first
    [ apply ret_tr | apply raise_tr | apply ext_tr | apply getitem_tr
    | apply truth_tr | apply call_kwargs_tr
    | apply bind_tr; [| intro]
    | progress cbv zeta
    | match goal with |- transparent (if ?b then _ else _) => destruct b end ].

Ltac only_auto :=
  repeat first
    [ apply ret_only | apply raise_only | apply call_kwargs_only
    | apply getitem_only; intro | apply truth_only; intro
    | apply ext_only
    | apply bind_only; [| intro]
    | progress cbv zeta
    | match goal with |- only_calls _ (if ?b then _ else _) => destruct b end ].

(** Locating an event in a history. *)

Lemma app_cons_nth {X} (l pre post : list X) x :
  l = app pre (x :: post) ->
  nth_error l (length pre) = Some x /\ pre = firstn (length pre) l.
Proof.
  intros ->. split.
  - rewrite nth_error_app2, Nat.sub_diag by lia. reflexivity.
  - rewrite firstn_app, Nat.sub_diag, firstn_all. simpl. rewrite app_nil_r. reflexivity.
Qed.

Lemma app_app_cons {X} (l1 l2 pre post : list X) x :
  app l1 l2 = app pre (x :: post) ->
  In x l2 \/ exists post', l1 = app pre (x :: post').
Proof.
  revert pre. induction l1 as [| y l1 IH]; intros pre H.
  - left. simpl in H. subst l2. apply in_or_app. right. left. reflexivity.
  - destruct pre as [| z pre]; simpl in H; injection H as Hy H'.
    + right. exists l1. subst. reflexivity.
    + destruct (IH pre H') as [Hin | [post' E]]; [left; exact Hin |].
      right. exists post'. subst. reflexivity.
Qed.

Lemma bind_ext_cases {B} oracle c (k : pyval -> M B) h :
  bind (ext oracle c) k h =
  match oracle h c with
  | inl e => (app h [(c, inl e)], inl e)
  | inr v => k v (app h [(c, inr v)])
  end.
Proof. unfold bind, ext. destruct (oracle h c); reflexivity. Qed.

(** [H : l = pre ++ x :: post] with [l] a list of known length: one goal
    per position of [x] in [l], with [pre] the elements before it. *)
Ltac at_position H pre :=
  let Hn := fresh "Hn" in let Hp := fresh "Hp" in let n := fresh "n" in
  destruct (app_cons_nth _ _ _ _ H) as [Hn Hp]; clear H;
  set (n := length pre) in *; clearbody n; subst pre;
  repeat (destruct n as [| n]; simpl in Hn;
          [ first [ discriminate Hn | injection Hn; intros; subst ]
          | try discriminate Hn ]).

Ltac answer_each oracle :=
  repeat match goal with
         | |- context [oracle ?h0 ?c] =>
             let e := fresh "e" in let v := fresh "v" in let E := fresh "E" in
             destruct (oracle h0 c) as [e | v] eqn:E; cbv beta iota
         end.

Ltac in_new :=
  repeat (first [left; reflexivity | right]).

(** Every function of the scripts lets library exceptions through. *)

Lemma run_sim_tr oracle pars label rs : transparent (run_sim oracle pars label rs).
Proof. unfold run_sim. tr_auto. Qed.

Lemma run_trial_tr oracle trial : transparent (run_trial oracle trial).
Proof. unfold run_trial. tr_auto; apply run_sim_tr. Qed.

Lemma worker_tr oracle cfg : transparent (worker oracle cfg).
Proof. unfold worker. tr_auto. Qed.

Lemma run_workers_tr oracle cfg : transparent (run_workers oracle cfg).
Proof. unfold run_workers. tr_auto. Qed.

Lemma make_study_tr oracle cfg : transparent (make_study oracle cfg).
Proof. unfold make_study. tr_auto. Qed.

Lemma run_msim_tr oracle func n label kwargs :
  transparent (run_msim oracle func n label kwargs).
Proof. unfold run_msim. tr_auto. Qed.

Lemma main_calib_tr oracle : transparent (main_calib oracle).
Proof.
  unfold main_calib.
  repeat first
    [ apply ret_tr | apply ext_tr | apply make_study_tr | apply run_workers_tr
    | apply run_sim_tr | apply bind_tr; [| intro] | progress cbv zeta ].
Qed.

(** ** Claims *)

(** C5: an exception raised by a library call inside [run_sim],
    [run_trial], [worker], [run_workers], [make_study], [run_msim] or the
    script's top level ends the computation at once: no later call is made
    (no retry, no recovery) and the function raises that same exception,
    unmodified. *)
Theorem library_exceptions_propagate :
  forall oracle,
    (forall pars label rs, transparent (run_sim oracle pars label rs)) /\
    (forall trial, transparent (run_trial oracle trial)) /\
    (forall cfg, transparent (worker oracle cfg)) /\
    (forall cfg, transparent (run_workers oracle cfg)) /\
    (forall cfg, transparent (make_study oracle cfg)) /\
    (forall func n label kwargs, transparent (run_msim oracle func n label kwargs)) /\
    transparent (main_calib oracle).
Proof.
  intro oracle.
  split; [intros; apply run_sim_tr |].
  split; [intros; apply run_trial_tr |].
  split; [intros; apply worker_tr |].
  split; [intros; apply run_workers_tr |].
  split; [intros; apply make_study_tr |].
  split; [intros; apply run_msim_tr |].
  apply main_calib_tr.
Qed.

(** C9: a dict lacking ['beta'] or ['rel_death_prob'] makes [run_sim]
    raise [KeyError] for the missing key before any library call: nothing is
    printed, and no simulation is constructed or run. *)
Theorem run_sim_missing_key :
  forall oracle d label rs h,
    dict_get d "beta" = None \/ dict_get d "rel_death_prob" = None ->
    exists k, (k = "beta" \/ k = "rel_death_prob") /\ dict_get d k = None /\
      run_sim oracle (PDict d) label rs h = (h, inl (KeyError k)).
Proof.
  intros oracle d label rs h Hmiss. unfold run_sim.
  destruct (dict_get d "beta") as [b |] eqn:Hb.
  - destruct Hmiss as [Hmiss | Hr]; [discriminate Hmiss |].
    exists "rel_death_prob". split; [right; reflexivity | split; [exact Hr |]].
    rewrite (getitem_dict oracle d "beta" b Hb), bind_ret.
    rewrite (getitem_dict_none oracle d "rel_death_prob" Hr), bind_raise.
    reflexivity.
  - exists "beta". split; [left; reflexivity | split; [exact Hb |]].
    rewrite (getitem_dict_none oracle d "beta" Hb), bind_raise. reflexivity.
Qed.

(** C1: for a dict holding ['beta'] = b and ['rel_death_prob'] = r, when the
    libraries raise nothing, [run_sim] prints, builds the simulation
    parameter dict from b and r, constructs the simulation, runs it, computes
    its fit, and returns the simulation itself when [return_sim] is true and
    the fit's [mismatch] when it is false. *)
Theorem run_sim_returns :
  forall oracle d label (rs : bool) h b r,
    no_raise oracle ->
    dict_get d "beta" = Some b ->
    dict_get d "rel_death_prob" = Some r ->
    exists p iv sim u fit v,
      run_sim oracle (PDict d) label (PBool rs) h =
        (app h ([(CCall "print" [PStr "Running sim for beta="; b;
                                 PStr ", rel_death_prob="; r] [], inr p);
                 (CCall "cv.test_num" [] [("daily_tests", PStr "data")], inr iv);
                 (CCall "cv.Sim" []
                    [("pars", PDict [("start_day", PStr "2020-02-01");
                                     ("end_day", PStr "2020-04-11");
                                     ("beta", b);
                                     ("rel_death_prob", r);
                                     ("interventions", iv);
                                     ("verbose", PInt 0)]);
                     ("datafile", PStr datafile_path);
                     ("label", label)], inr sim);
                 (CMeth sim "run" [] [], inr u);
                 (CMeth sim "compute_fit" [] [], inr fit)]
                ++ (if rs then [] else [(CGetAttr fit "mismatch", inr v)])),
         inr (if rs then sim else v)).
Proof.
  intros oracle d label rs h b r Hno Hb Hr. unfold run_sim.
  rewrite (getitem_dict oracle d "beta" b Hb).
  rewrite (getitem_dict oracle d "rel_death_prob" r Hr).
  repeat rewrite bind_ret.
  unfold bind, ext, truth, ret; cbv zeta.
  repeat match goal with
         | |- context [oracle ?h0 ?c] =>
             let v := fresh "v" in let Hv := fresh "Hv" in
             destruct (Hno h0 c) as [v Hv]; rewrite Hv
         end.
  destruct rs.
  - do 5 eexists. exists PNone. repeat rewrite <- app_assoc. reflexivity.
  - repeat match goal with
           | |- context [oracle ?h0 ?c] =>
               let v := fresh "v" in let Hv := fresh "Hv" in
               destruct (Hno h0 c) as [v Hv]; rewrite Hv
           end.
    do 6 eexists. repeat rewrite <- app_assoc. reflexivity.
Qed.

(** C8: [run_sim] reads nothing of its [pars] argument but the values at
    ['beta'] and ['rel_death_prob']: two dicts that agree there give the same
    behaviour (same calls, same result) for the same [label] and
    [return_sim].  Every [cv.Sim] call it makes gets no positional argument,
    the fixed start day, end day, verbosity and data file, the two values
    read, and as intervention the object returned by the call made just
    before it, the constant call [cv.test_num(daily_tests='data')]. *)
Theorem run_sim_reads_only_beta_rdp :
  forall oracle d1 d2 label rs,
    dict_get d1 "beta" = dict_get d2 "beta" ->
    dict_get d1 "rel_death_prob" = dict_get d2 "rel_death_prob" ->
    (forall h, run_sim oracle (PDict d1) label rs h =
               run_sim oracle (PDict d2) label rs h) /\
    (forall h, exists new,
       fst (run_sim oracle (PDict d1) label rs h) = app h new /\
       forall pre args kw a post,
         new = app pre ((CCall "cv.Sim" args kw, a) :: post) ->
         exists b r iv pre',
           dict_get d1 "beta" = Some b /\
           dict_get d1 "rel_death_prob" = Some r /\
           pre = app pre' [(CCall "cv.test_num" [] [("daily_tests", PStr "data")], inr iv)] /\
           args = [] /\
           kw = [("pars", PDict [("start_day", PStr "2020-02-01");
                                 ("end_day", PStr "2020-04-11");
                                 ("beta", b);
                                 ("rel_death_prob", r);
                                 ("interventions", iv);
                                 ("verbose", PInt 0)]);
                 ("datafile", PStr "/home/cliffk/idm/covasim/docs/tutorials/example_data.csv");
                 ("label", label)]).
Proof.
  intros oracle d1 d2 label rs Hb Hr. split.
  - intro h. unfold run_sim, getitem. rewrite Hb, Hr. reflexivity.
  - intro h. unfold run_sim.
    destruct (dict_get d1 "beta") as [b |] eqn:Eb.
    2: { rewrite (getitem_dict_none oracle d1 "beta" Eb), bind_raise.
         exists []. split; [symmetry; apply app_nil_r |].
         intros pre args kw a post H. at_position H pre. }
    rewrite (getitem_dict oracle d1 "beta" b Eb).
    destruct (dict_get d1 "rel_death_prob") as [r |] eqn:Er.
    2: { rewrite (getitem_dict_none oracle d1 "rel_death_prob" Er), bind_ret, bind_raise.
         exists []. split; [symmetry; apply app_nil_r |].
         intros pre args kw a post H. at_position H pre. }
    rewrite (getitem_dict oracle d1 "rel_death_prob" r Er).
    repeat rewrite bind_ret.
    rewrite bind_ext_cases.
    destruct (oracle h _) as [e | p];
      [ exists [(CCall "print" [PStr "Running sim for beta="; b;
                                PStr ", rel_death_prob="; r] [], inl e)];
        split; [reflexivity |]; intros pre args kw a post H; at_position H pre |].
    rewrite bind_ext_cases.
    destruct (oracle _ (CCall "cv.test_num" _ _)) as [e | iv];
      [ eexists; split; [cbn [fst]; rewrite <- app_assoc; reflexivity |];
        intros pre args kw a post H; at_position H pre |].
    rewrite bind_ext_cases.
    destruct (oracle _ (CCall "cv.Sim" _ _)) as [e | sim].
    + eexists; split; [cbn [fst]; repeat rewrite <- app_assoc; reflexivity |].
      intros pre args kw a post H; at_position H pre.
      do 3 eexists. exists [(CCall "print" [PStr "Running sim for beta="; b;
                                           PStr ", rel_death_prob="; r] [], inr p)].
      repeat split; reflexivity.
    + match goal with
      | |- context [fst (?T ?h3)] =>
          assert (HT : only_calls (fun c => forall args kw, c <> CCall "cv.Sim" args kw) T)
            by (only_auto; intros ? ? Hc; discriminate Hc);
          destruct (HT h3) as [new2 [E2 H2]]; rewrite E2
      end.
      eexists. split; [repeat rewrite <- app_assoc; simpl app; reflexivity |].
      intros pre args kw a post H.
      destruct (app_app_cons [_; _; _] new2 _ _ _ H) as [Hin | [post' H']].
      * exfalso. exact (H2 _ _ Hin args kw eq_refl).
      * at_position H' pre.
        do 3 eexists. exists [(CCall "print" [PStr "Running sim for beta="; b;
                                             PStr ", rel_death_prob="; r] [], inr p)].
        repeat split; reflexivity.
Qed.

(** C2: when the trial's [suggest_uniform(name, low, high)] returns a float
    in [[low, high]], [run_trial] builds the dict with exactly the keys
    ['beta'] (a value in [[0.005, 0.020]]) and ['rel_death_prob'] (a value in
    [[0.5, 3.0]]), hands it to [run_sim] with the default [label] and
    [return_sim], and returns what [run_sim] returns: the fit mismatch. *)
Theorem run_trial_samples_in_bounds :
  forall oracle trial h,
    (forall h' nm lo hi,
        (lo <= hi)%Q ->
        exists x,
          oracle h' (CMeth trial "suggest_uniform" [PStr nm; PFloat lo; PFloat hi] [])
            = inr (PFloat x) /\ (lo <= x)%Q /\ (x <= hi)%Q) ->
    exists xb xr,
      (Qmake 5 1000 <= xb <= Qmake 20 1000)%Q /\
      (Qmake 5 10 <= xr <= Qmake 3 1)%Q /\
      map fst [("beta", PFloat xb); ("rel_death_prob", PFloat xr)]
        = ["beta"; "rel_death_prob"] /\
      run_trial oracle trial h =
        run_sim oracle (PDict [("beta", PFloat xb); ("rel_death_prob", PFloat xr)])
          PNone (PBool false)
          (app h [(CMeth trial "suggest_uniform"
                     [PStr "beta"; PFloat (Qmake 5 1000); PFloat (Qmake 20 1000)] [],
                   inr (PFloat xb));
                  (CMeth trial "suggest_uniform"
                     [PStr "rel_death_prob"; PFloat (Qmake 5 10); PFloat (Qmake 3 1)] [],
                   inr (PFloat xr))]).
Proof.
  intros oracle trial h Hs.
  destruct (Hs h "beta" (Qmake 5 1000) (Qmake 20 1000)) as [xb [Exb [Lb Ub]]].
  { unfold Qle; simpl; lia. }
  unfold run_trial. cbv [bind ext]. rewrite Exb. cbv beta iota zeta.
  match goal with
  | |- context [oracle ?h1 (CMeth trial "suggest_uniform" (PStr "rel_death_prob" :: _) [])] =>
      destruct (Hs h1 "rel_death_prob" (Qmake 5 10) (Qmake 3 1)) as [xr [Exr [Lr Ur]]];
      [unfold Qle; simpl; lia |]
  end.
  exists xb, xr. split; [split; assumption |]. split; [split; assumption |].
  split; [reflexivity |].
  rewrite Exr. cbv beta iota zeta.
  change (dict_set (dict_set [] "beta" (PFloat xb)) "rel_death_prob" (PFloat xr))
    with [("beta", PFloat xb); ("rel_death_prob", PFloat xr)].
  rewrite <- app_assoc. simpl app.
  assert (Hr : forall m : hist * (exn + pyval),
             (let (h1, s) := m in
              match s with inl e => (h1, inl e) | inr x0 => ret x0 h1 end) = m)
    by (intros [h1 [e | x0]]; reflexivity).
  rewrite Hr. reflexivity.
Qed.

(** C3: [make_study] asks [os.path.exists] for the study's database file;
    when the file exists it is removed (and the removal printed) before
    [op.create_study] is called on the study's storage and name, and the
    study that call returns is the result. *)
Theorem make_study_removes_then_creates :
  forall oracle cfg h (b : bool),
    no_raise oracle ->
    oracle h (CCall "os.path.exists" [PStr (db_name cfg)] []) = inr (PBool b) ->
    exists a1 a2 st,
      make_study oracle cfg h =
        (app h ([(CCall "os.path.exists" [PStr (db_name cfg)] [], inr (PBool b))]
                ++ (if b
                    then [(CCall "os.remove" [PStr (db_name cfg)] [], inr a1);
                          (CCall "print" [PStr "Removed existing calibration ";
                                          PStr (db_name cfg)] [], inr a2)]
                    else [])
                ++ [(CCall "op.create_study" [] [("storage", PStr (storage cfg));
                                                  ("study_name", PStr (name cfg))],
                     inr st)]),
         inr st).
Proof.
  intros oracle cfg h b Hno Hex. unfold make_study.
  cbv [bind ext ret truth]. rewrite Hex. cbv beta iota zeta.
  destruct b; cbv beta iota zeta.
  - repeat match goal with
           | |- context [oracle ?h0 ?c] =>
               let v := fresh "v" in let Hv := fresh "Hv" in
               destruct (Hno h0 c) as [v Hv]; rewrite Hv; cbv beta iota
           end.
    do 3 eexists. repeat rewrite <- app_assoc. reflexivity.
  - repeat match goal with
           | |- context [oracle ?h0 ?c] =>
               let v := fresh "v" in let Hv := fresh "Hv" in
               destruct (Hno h0 c) as [v Hv]; rewrite Hv; cbv beta iota
           end.
    exists PNone, PNone. eexists. repeat rewrite <- app_assoc. reflexivity.
Qed.

(** C6: the database file of study [nm] is [nm + '.db'], the storage URL
    is ['sqlite:///'] followed by that path, and these are exactly the file
    [make_study] checks and removes and the storage it and [worker] hand to
    optuna. *)
Theorem study_db_paths :
  forall nm oracle,
    db_name (make_settings nm) = nm ++ ".db" /\
    storage (make_settings nm) = "sqlite:///" ++ db_name (make_settings nm) /\
    only_calls
      (fun c => match c with
                  | CCall fn args kw =>
                      ((fn = "os.path.exists" \/ fn = "os.remove") ->
                       args = [PStr (nm ++ ".db")]) /\
                      ((fn = "op.create_study" \/ fn = "op.load_study") ->
                       dict_get kw "storage" = Some (PStr ("sqlite:///" ++ nm ++ ".db")) /\
                       dict_get kw "study_name" = Some (PStr nm))
                  | _ => True
                  end)
      (make_study oracle (make_settings nm)) /\
    only_calls
      (fun c => match c with
                  | CCall fn args kw =>
                      ((fn = "os.path.exists" \/ fn = "os.remove") ->
                       args = [PStr (nm ++ ".db")]) /\
                      ((fn = "op.create_study" \/ fn = "op.load_study") ->
                       dict_get kw "storage" = Some (PStr ("sqlite:///" ++ nm ++ ".db")) /\
                       dict_get kw "study_name" = Some (PStr nm))
                  | _ => True
                  end)
      (worker oracle (make_settings nm)).
Proof.
  intros nm oracle. split; [reflexivity |]. split; [reflexivity |]. split.
  - unfold make_study. only_auto.
    all: first
           [ exact I
           | split; intros [Hf | Hf];
             first [ discriminate Hf | reflexivity | split; reflexivity ] ].
  - unfold worker. only_auto.
    all: first
           [ exact I
           | split; intros [Hf | Hf];
             first [ discriminate Hf | reflexivity | split; reflexivity ] ].
Qed.

Lemma demo_oracle_no_raise : no_raise demo_oracle.
Proof.
  intros h c. unfold demo_oracle.
  repeat match goal with
         | |- context [match ?x with _ => _ end] => destruct x
         | |- context [if ?b then _ else _] => destruct b
         end;
  eexists; reflexivity.
Qed.

Lemma range_iter_nth (n : Z) (i : nat) :
  nth_error (range_iter n) i =
  if Nat.ltb i (Z.to_nat n) then Some (Z.of_nat i) else None.
Proof.
  unfold range_iter. rewrite nth_error_map.
  destruct (Nat.ltb_spec i (Z.to_nat n)) as [Hi | Hi].
  - rewrite nth_error_seq. destruct (Nat.ltb_spec i (Z.to_nat n)); [| lia].
    reflexivity.
  - rewrite (proj2 (nth_error_None (seq 0 (Z.to_nat n)) i)); [reflexivity |].
    rewrite length_seq. exact Hi.
Qed.

Lemma call_kwargs_fresh func n kwargs :
  ~ In "func" (map fst kwargs) -> ~ In "iterkwargs" (map fst kwargs) ->
  call_kwargs [("func", func); ("iterkwargs", PDict [("seed", PRange n)])] kwargs
  = ret (app [("func", func); ("iterkwargs", PDict [("seed", PRange n)])] kwargs).
Proof.
  intros Hf Hi. unfold call_kwargs.
  replace (find _ kwargs) with (@None (string * pyval)); [reflexivity |].
  induction kwargs as [| [k v] kw IH]; [reflexivity |].
  simpl in Hf, Hi |- *.
  destruct (String.eqb_spec k "func") as [-> | Hk1]; [exfalso; tauto |].
  destruct (String.eqb_spec k "iterkwargs") as [-> | Hk2]; [exfalso; tauto |].
  simpl. apply IH; tauto.
Qed.

(** C4 (as stated): every call of [run_msim] fans out.  It fails when the
    extra keyword arguments contain ['iterkwargs']: Python refuses the
    duplicate keyword of [sc.parallelize(func=func, iterkwargs=..., **kwargs)]
    with a [TypeError], although the libraries raise nothing, and nothing is
    called at all. *)
Lemma run_msim_duplicate_iterkwargs :
  no_raise demo_oracle /\
  run_msim demo_oracle (PFun "get_vaccine_schedule_scenario_sim") 2
           (PStr "baseline vaccination") [("iterkwargs", PDict [])] []
  = ([], inl (TypeError "got multiple values for keyword argument 'iterkwargs'")).
Proof.
  split; [apply demo_oracle_no_raise | reflexivity].
Qed.

(** C4 (amended): when the extra keyword arguments do not repeat
    ['iterkwargs'] and the libraries raise nothing, [run_msim] calls
    [sc.parallelize] with [func] and [iterkwargs={'seed': range(n_runs)}]
    (the seeds 0, 1, ..., n_runs-1) and the extra keyword arguments, wraps the
    result in [cv.MultiSim(sims, label=label, keep_people=True)], runs it,
    computes its median, sets [msim.sims[0].label] to [label] and returns the
    container. *)
Theorem run_msim_fans_out :
  forall oracle func n label kwargs h,
    no_raise oracle ->
    ~ In "func" (map fst kwargs) ->
    ~ In "iterkwargs" (map fst kwargs) ->
    (forall i, nth_error (range_iter n) i =
               if Nat.ltb i (Z.to_nat n) then Some (Z.of_nat i) else None) /\
    exists sims msim x y s s0 z,
      run_msim oracle func n label kwargs h =
        (app h [(CCall "sc.parallelize" []
                   (app [("func", func);
                         ("iterkwargs", PDict [("seed", PRange n)])] kwargs),
                 inr sims);
                (CCall "cv.MultiSim" [sims] [("label", label);
                                             ("keep_people", PBool true)], inr msim);
                (CMeth msim "run" [] [("keep_people", PBool true)], inr x);
                (CMeth msim "median" [] [], inr y);
                (CGetAttr msim "sims", inr s);
                (CGetItem s (PInt 0), inr s0);
                (CSetAttr s0 "label" label, inr z)],
         inr msim).
Proof.
  intros oracle func n label kwargs h Hno Hf Hi. split; [apply range_iter_nth |].
  unfold run_msim. rewrite (call_kwargs_fresh func n kwargs Hf Hi), bind_ret.
  cbv [bind ext ret]. cbv beta iota zeta.
  repeat match goal with
         | |- context [oracle ?h0 ?c] =>
             let v := fresh "v" in let Hv := fresh "Hv" in
             destruct (Hno h0 c) as [v Hv]; rewrite Hv; cbv beta iota
         end.
  do 7 eexists. repeat rewrite <- app_assoc. reflexivity.
Qed.

Lemma run_sim_no_mutation oracle pars label rs :
  only_calls (fun c => mutating c = false) (run_sim oracle pars label rs).
Proof. unfold run_sim. only_auto; reflexivity. Qed.

Lemma run_trial_no_mutation oracle trial :
  only_calls (fun c => mutating c = false) (run_trial oracle trial).
Proof. unfold run_trial. only_auto; first [reflexivity | apply run_sim_no_mutation]. Qed.

(** C7 (as stated): no function's own logic destroys or mutates an
    existing object.  It fails twice: [make_study] removes the existing
    database file, and [run_msim] assigns the label of [msim.sims[0]]. *)
Lemma own_logic_mutates :
  existsb (fun ca => mutating (fst ca))
          (fst (make_study demo_oracle main_settings [])) = true /\
  In (CCall "os.remove" [PStr "my-example-calibration.db"] [])
     (map fst (fst (make_study demo_oracle main_settings []))) /\
  existsb (fun ca => mutating (fst ca))
          (fst (run_msim demo_oracle (PFun "get_vaccine_schedule_scenario_sim") 2
                         (PStr "baseline vaccination") [] [])) = true.
Proof. split; [reflexivity | split; [simpl; tauto | reflexivity]]. Qed.

(** C7 (amended): beyond building dicts, the scripts' own code deletes or
    assigns exactly two things.  [run_sim], [run_trial], [worker] and
    [run_workers] delete and assign nothing.  The only deletion [make_study]
    makes is [os.remove(db_name)], and it makes it whenever
    [os.path.exists(db_name)] answers [True].  The only assignment [run_msim]
    makes is of its [label] argument to the [label] attribute of
    [msim.sims[0]]: the object read as item 0 of the [sims] attribute of the
    [cv.MultiSim] it has just created, run and reduced to its median; it
    makes it whenever no library call raises and the keyword arguments do
    not clash. *)
Theorem mutations_are_remove_and_relabel :
  forall oracle,
    (forall pars label rs,
        only_calls (fun c => mutating c = false) (run_sim oracle pars label rs)) /\
    (forall trial,
        only_calls (fun c => mutating c = false) (run_trial oracle trial)) /\
    (forall cfg, only_calls (fun c => mutating c = false) (worker oracle cfg)) /\
    (forall cfg, only_calls (fun c => mutating c = false) (run_workers oracle cfg)) /\
    (forall cfg h, exists new,
        fst (make_study oracle cfg h) = app h new /\
        (forall c a, In (c, a) new -> mutating c = true ->
                     c = CCall "os.remove" [PStr (db_name cfg)] []) /\
        (oracle h (CCall "os.path.exists" [PStr (db_name cfg)] []) = inr (PBool true) ->
         exists a, In (CCall "os.remove" [PStr (db_name cfg)] [], a) new)) /\
    (forall func n label kwargs h, exists new,
        fst (run_msim oracle func n label kwargs h) = app h new /\
        (forall pre c a post, new = app pre ((c, a) :: post) -> mutating c = true ->
           exists pre0 sims m u1 u2 s s0,
             c = CSetAttr s0 "label" label /\
             pre = app pre0
                     [(CCall "cv.MultiSim" [sims] [("label", label);
                                                   ("keep_people", PBool true)], inr m);
                      (CMeth m "run" [] [("keep_people", PBool true)], inr u1);
                      (CMeth m "median" [] [], inr u2);
                      (CGetAttr m "sims", inr s);
                      (CGetItem s (PInt 0), inr s0)]) /\
        (no_raise oracle -> ~ In "func" (map fst kwargs) -> ~ In "iterkwargs" (map fst kwargs) ->
         exists s0 a, In (CSetAttr s0 "label" label, a) new)).
Proof.
  intro oracle.
  split; [intros; apply run_sim_no_mutation |].
  split; [intros; apply run_trial_no_mutation |].
  split; [intros cfg; unfold worker; only_auto; reflexivity |].
  split; [intros cfg; unfold run_workers; only_auto; reflexivity |].
  split.
  - intros cfg h.
    assert (Hm : only_calls (fun c => mutating c = true ->
                                      c = CCall "os.remove" [PStr (db_name cfg)] [])
                            (make_study oracle cfg))
      by (unfold make_study; only_auto; intro Hm; first [discriminate Hm | reflexivity]).
    destruct (Hm h) as [new [E Hnew]].
    exists new. split; [exact E |]. split; [intros c a Hin; exact (Hnew c a Hin) |].
    intro Hex. unfold make_study in E. cbv [bind ext ret truth] in E.
    rewrite Hex in E. cbv beta iota in E.
    revert E. answer_each oracle. all: intro Etr.
    all: cbn [fst] in Etr; repeat rewrite <- app_assoc in Etr; apply app_inv_head in Etr;
         subst new; eexists; simpl; in_new.
  - intros func n label kwargs h.
    unfold run_msim, call_kwargs.
    destruct (find _ kwargs) as [[k v0] |] eqn:Ef.
    + exists []. split; [symmetry; apply app_nil_r |]. split.
      * intros pre c a post H. at_position H pre.
      * intros Hno Hf Hi. exfalso.
        pose proof (call_kwargs_fresh func n kwargs Hf Hi) as Hc.
        unfold call_kwargs in Hc. rewrite Ef in Hc.
        apply (f_equal (fun m => snd (m []))) in Hc. discriminate Hc.
    + cbv [bind ext ret]. answer_each oracle.
      all: cbn [fst]; eexists; split;
           [repeat rewrite <- app_assoc; simpl app; reflexivity |].
      all: split;
           [ intros pre c a post H Hmut; at_position H pre;
             try discriminate Hmut
           | intros Hno _ _;
             first [ do 2 eexists; solve [in_new]
                   | exfalso;
                     match goal with
                     | E : _ ?h0 ?c0 = inl _ |- _ =>
                         destruct (Hno h0 c0) as [w Hw]; rewrite Hw in E; discriminate E
                     end ] ].
      all: eexists [_]; do 6 eexists; split; reflexivity.
Qed.

(** ** Witnesses: the hypotheses of the claims hold at concrete inputs *)

Lemma run_sim_returns_witness :
  no_raise demo_oracle /\
  dict_get [("beta", PFloat (Qmake 15 1000)); ("rel_death_prob", PFloat 1)] "beta"
    = Some (PFloat (Qmake 15 1000)) /\
  dict_get [("beta", PFloat (Qmake 15 1000)); ("rel_death_prob", PFloat 1)] "rel_death_prob"
    = Some (PFloat 1) /\
  exists p iv sim u fit v,
    run_sim demo_oracle
      (PDict [("beta", PFloat (Qmake 15 1000)); ("rel_death_prob", PFloat 1)])
      (PStr "Before calibration") (PBool true) [] =
      (app [] ([(CCall "print" [PStr "Running sim for beta="; PFloat (Qmake 15 1000);
                               PStr ", rel_death_prob="; PFloat 1] [], inr p);
                (CCall "cv.test_num" [] [("daily_tests", PStr "data")], inr iv);
                (CCall "cv.Sim" []
                   [("pars", PDict [("start_day", PStr "2020-02-01");
                                    ("end_day", PStr "2020-04-11");
                                    ("beta", PFloat (Qmake 15 1000));
                                    ("rel_death_prob", PFloat 1);
                                    ("interventions", iv);
                                    ("verbose", PInt 0)]);
                    ("datafile", PStr datafile_path);
                    ("label", PStr "Before calibration")], inr sim);
                (CMeth sim "run" [] [], inr u);
                (CMeth sim "compute_fit" [] [], inr fit)]
               ++ (if true then [] else [(CGetAttr fit "mismatch", inr v)])),
       inr (if true then sim else v)).
Proof.
  split; [apply demo_oracle_no_raise |].
  split; [reflexivity |]. split; [reflexivity |].
  apply (run_sim_returns demo_oracle
           [("beta", PFloat (Qmake 15 1000)); ("rel_death_prob", PFloat 1)]
           (PStr "Before calibration") true [] (PFloat (Qmake 15 1000)) (PFloat 1));
    [apply demo_oracle_no_raise | reflexivity | reflexivity].
Defined.

Lemma run_sim_missing_key_witness :
  (dict_get [("beta", PFloat (Qmake 15 1000))] "beta" = None \/
   dict_get [("beta", PFloat (Qmake 15 1000))] "rel_death_prob" = None) /\
  exists k, (k = "beta" \/ k = "rel_death_prob") /\
    dict_get [("beta", PFloat (Qmake 15 1000))] k = None /\
    run_sim demo_oracle (PDict [("beta", PFloat (Qmake 15 1000))]) PNone (PBool false) []
      = ([], inl (KeyError k)).
Proof.
  split; [right; reflexivity |].
  apply (run_sim_missing_key demo_oracle [("beta", PFloat (Qmake 15 1000))]
           PNone (PBool false) []).
  right; reflexivity.
Defined.

Lemma run_sim_reads_only_beta_rdp_witness :
  dict_get [("beta", PFloat 1); ("rel_death_prob", PFloat 2); ("seed", PInt 3)] "beta"
    = dict_get [("rel_death_prob", PFloat 2); ("beta", PFloat 1)] "beta" /\
  dict_get [("beta", PFloat 1); ("rel_death_prob", PFloat 2); ("seed", PInt 3)] "rel_death_prob"
    = dict_get [("rel_death_prob", PFloat 2); ("beta", PFloat 1)] "rel_death_prob" /\
  (forall h,
      run_sim demo_oracle
        (PDict [("beta", PFloat 1); ("rel_death_prob", PFloat 2); ("seed", PInt 3)])
        PNone (PBool false) h =
      run_sim demo_oracle (PDict [("rel_death_prob", PFloat 2); ("beta", PFloat 1)])
        PNone (PBool false) h).
Proof.
  split; [reflexivity |]. split; [reflexivity |].
  apply (run_sim_reads_only_beta_rdp demo_oracle
           [("beta", PFloat 1); ("rel_death_prob", PFloat 2); ("seed", PInt 3)]
           [("rel_death_prob", PFloat 2); ("beta", PFloat 1)] PNone (PBool false));
    reflexivity.
Defined.

Lemma mutations_are_remove_and_relabel_witness :
  demo_oracle [] (CCall "os.path.exists" [PStr (db_name main_settings)] [])
    = inr (PBool true) /\
  (exists a, In (CCall "os.remove" [PStr (db_name main_settings)] [], a)
                (fst (make_study demo_oracle main_settings []))) /\
  (exists s0 a,
     In (CSetAttr s0 "label" (PStr "baseline vaccination"), a)
        (fst (run_msim demo_oracle (PFun "who.get_vaccine_schedule_scenario_sim") 2
                (PStr "baseline vaccination") [("location", PStr "ZIM")] []))).
Proof.
  destruct (mutations_are_remove_and_relabel demo_oracle)
    as [_ [_ [_ [_ [Hms Hrm]]]]].
  split; [reflexivity |]. split.
  - destruct (Hms main_settings []) as [new [E [_ Hhap]]].
    rewrite E. change (app [] new) with new. apply Hhap. reflexivity.
  - destruct (Hrm (PFun "who.get_vaccine_schedule_scenario_sim") 2%Z
                  (PStr "baseline vaccination") [("location", PStr "ZIM")] [])
      as [new [E [_ Hhap]]].
    rewrite E. change (app [] new) with new.
    apply Hhap; [apply demo_oracle_no_raise | simpl; intuition discriminate
                | simpl; intuition discriminate].
Defined.

Lemma demo_oracle_suggest_in_bounds :
  forall h' nm lo hi,
    (lo <= hi)%Q ->
    exists x,
      demo_oracle h' (CMeth (PObj 0) "suggest_uniform" [PStr nm; PFloat lo; PFloat hi] [])
        = inr (PFloat x) /\ (lo <= x)%Q /\ (x <= hi)%Q.
Proof.
  intros h' nm lo hi Hle. exists lo.
  split; [reflexivity | split; [apply Qle_refl | exact Hle]].
Qed.

Lemma run_trial_samples_in_bounds_witness :
  (forall h' nm lo hi,
      (lo <= hi)%Q ->
      exists x,
        demo_oracle h' (CMeth (PObj 0) "suggest_uniform" [PStr nm; PFloat lo; PFloat hi] [])
          = inr (PFloat x) /\ (lo <= x)%Q /\ (x <= hi)%Q) /\
  exists xb xr,
    (Qmake 5 1000 <= xb <= Qmake 20 1000)%Q /\
    (Qmake 5 10 <= xr <= Qmake 3 1)%Q /\
    map fst [("beta", PFloat xb); ("rel_death_prob", PFloat xr)]
      = ["beta"; "rel_death_prob"] /\
    run_trial demo_oracle (PObj 0) [] =
      run_sim demo_oracle (PDict [("beta", PFloat xb); ("rel_death_prob", PFloat xr)])
        PNone (PBool false)
        (app [] [(CMeth (PObj 0) "suggest_uniform"
                    [PStr "beta"; PFloat (Qmake 5 1000); PFloat (Qmake 20 1000)] [],
                  inr (PFloat xb));
                 (CMeth (PObj 0) "suggest_uniform"
                    [PStr "rel_death_prob"; PFloat (Qmake 5 10); PFloat (Qmake 3 1)] [],
                  inr (PFloat xr))]).
Proof.
  split; [exact demo_oracle_suggest_in_bounds |].
  apply (run_trial_samples_in_bounds demo_oracle (PObj 0) []).
  exact demo_oracle_suggest_in_bounds.
Defined.

Lemma make_study_removes_then_creates_witness :
  no_raise demo_oracle /\
  demo_oracle [] (CCall "os.path.exists" [PStr (db_name main_settings)] [])
    = inr (PBool true) /\
  exists a1 a2 st,
    make_study demo_oracle main_settings [] =
      (app [] ([(CCall "os.path.exists" [PStr (db_name main_settings)] [],
                 inr (PBool true))]
               ++ (if true
                   then [(CCall "os.remove" [PStr (db_name main_settings)] [], inr a1);
                         (CCall "print" [PStr "Removed existing calibration ";
                                         PStr (db_name main_settings)] [], inr a2)]
                   else [])
               ++ [(CCall "op.create_study" []
                      [("storage", PStr (storage main_settings));
                       ("study_name", PStr (name main_settings))], inr st)]),
       inr st).
Proof.
  split; [apply demo_oracle_no_raise |]. split; [reflexivity |].
  apply (make_study_removes_then_creates demo_oracle main_settings [] true);
    [apply demo_oracle_no_raise | reflexivity].
Defined.

Lemma run_msim_fans_out_witness :
  no_raise demo_oracle /\
  ~ In "func" (map fst [("location", PStr "ZIM"); ("end_date", PStr "2021-06-30")]) /\
  ~ In "iterkwargs" (map fst [("location", PStr "ZIM"); ("end_date", PStr "2021-06-30")]) /\
  (forall i, nth_error (range_iter 2) i =
             if Nat.ltb i (Z.to_nat 2) then Some (Z.of_nat i) else None) /\
  exists sims msim x y s s0 z,
    run_msim demo_oracle (PFun "get_vaccine_schedule_scenario_sim") 2
             (PStr "baseline vaccination")
             [("location", PStr "ZIM"); ("end_date", PStr "2021-06-30")] [] =
      (app [] [(CCall "sc.parallelize" []
                  (app [("func", PFun "get_vaccine_schedule_scenario_sim");
                        ("iterkwargs", PDict [("seed", PRange 2)])]
                       [("location", PStr "ZIM"); ("end_date", PStr "2021-06-30")]),
                inr sims);
               (CCall "cv.MultiSim" [sims] [("label", PStr "baseline vaccination");
                                            ("keep_people", PBool true)], inr msim);
               (CMeth msim "run" [] [("keep_people", PBool true)], inr x);
               (CMeth msim "median" [] [], inr y);
               (CGetAttr msim "sims", inr s);
               (CGetItem s (PInt 0), inr s0);
               (CSetAttr s0 "label" (PStr "baseline vaccination"), inr z)],
       inr msim).
Proof.
  assert (Hf : ~ In "func" (map fst [("location", PStr "ZIM");
                                     ("end_date", PStr "2021-06-30")]))
    by (simpl; intuition discriminate).
  assert (Hi : ~ In "iterkwargs" (map fst [("location", PStr "ZIM");
                                           ("end_date", PStr "2021-06-30")]))
    by (simpl; intuition discriminate).
  split; [apply demo_oracle_no_raise |]. split; [exact Hf |]. split; [exact Hi |].
  apply (run_msim_fans_out demo_oracle (PFun "get_vaccine_schedule_scenario_sim") 2
           (PStr "baseline vaccination")
           [("location", PStr "ZIM"); ("end_date", PStr "2021-06-30")] []);
    [apply demo_oracle_no_raise | exact Hf | exact Hi].
Defined.

(** ** Further properties of the scripts *)

(** [run_trial] does not check what the trial suggests: whatever the two
    [suggest_uniform] calls return (out of bounds, not a float) is put into
    the dict unchanged and handed to [run_sim]. *)
Theorem run_trial_passes_suggestions_unchecked :
  forall oracle trial h xb xr,
    oracle h (CMeth trial "suggest_uniform"
                [PStr "beta"; PFloat (Qmake 5 1000); PFloat (Qmake 20 1000)] [])
      = inr xb ->
    oracle (@app (call * answer) h
              [(CMeth trial "suggest_uniform"
                  [PStr "beta"; PFloat (Qmake 5 1000); PFloat (Qmake 20 1000)] [],
                inr xb)])
           (CMeth trial "suggest_uniform"
              [PStr "rel_death_prob"; PFloat (Qmake 5 10); PFloat (Qmake 3 1)] [])
      = inr xr ->
    run_trial oracle trial h =
      run_sim oracle (PDict [("beta", xb); ("rel_death_prob", xr)]) PNone (PBool false)
        (app h [(CMeth trial "suggest_uniform"
                   [PStr "beta"; PFloat (Qmake 5 1000); PFloat (Qmake 20 1000)] [],
                 inr xb);
                (CMeth trial "suggest_uniform"
                   [PStr "rel_death_prob"; PFloat (Qmake 5 10); PFloat (Qmake 3 1)] [],
                 inr xr)]).
Proof.
  intros oracle trial h xb xr Exb Exr.
  unfold run_trial. cbv [bind ext]. rewrite Exb. cbv beta iota zeta.
  match goal with
  | |- context [oracle ?h1 (CMeth trial "suggest_uniform" (PStr "rel_death_prob" :: _) [])] =>
      replace (oracle h1 _) with (@inr exn pyval xr) by (symmetry; exact Exr)
  end.
  cbv beta iota zeta.
  change (dict_set (dict_set [] "beta" xb) "rel_death_prob" xr)
    with [("beta", xb); ("rel_death_prob", xr)].
  rewrite <- app_assoc. simpl app.
  assert (Hr : forall m : hist * (exn + pyval),
             (let (h1, s) := m in
              match s with inl e => (h1, inl e) | inr x0 => ret x0 h1 end) = m)
    by (intros [h1 [e | x0]]; reflexivity).
  rewrite Hr. reflexivity.
Qed.

(** Called with something that is neither a dict nor a library object
    (None, a number, a string, a list, a range, a function), [run_sim]
    raises [TypeError] at its first subscript, before any library call. *)
Theorem run_sim_rejects_non_mapping :
  forall oracle pars label rs h,
    (forall d, pars <> PDict d) ->
    (forall i, pars <> PObj i) ->
    exists msg, run_sim oracle pars label rs h = (h, inl (TypeError msg)).
Proof.
  intros oracle pars label rs h Hd Ho.
  destruct pars;
    try (exfalso; eapply Hd; reflexivity);
    try (exfalso; eapply Ho; reflexivity);
    eexists; reflexivity.
Qed.

(** With a mapping that is a library object, [run_sim] looks up each key
    twice through [__getitem__]: the values of the first two lookups are
    printed, those of the last two go into the simulation's parameters. *)
Theorem run_sim_library_mapping_reads_twice :
  forall oracle i label (rs : bool) h,
    no_raise oracle ->
    exists b r p b' r' iv sim u fit v,
      run_sim oracle (PObj i) label (PBool rs) h =
        (app h ([(CGetItem (PObj i) (PStr "beta"), inr b);
                 (CGetItem (PObj i) (PStr "rel_death_prob"), inr r);
                 (CCall "print" [PStr "Running sim for beta="; b;
                                 PStr ", rel_death_prob="; r] [], inr p);
                 (CGetItem (PObj i) (PStr "beta"), inr b');
                 (CGetItem (PObj i) (PStr "rel_death_prob"), inr r');
                 (CCall "cv.test_num" [] [("daily_tests", PStr "data")], inr iv);
                 (CCall "cv.Sim" []
                    [("pars", PDict [("start_day", PStr "2020-02-01");
                                     ("end_day", PStr "2020-04-11");
                                     ("beta", b');
                                     ("rel_death_prob", r');
                                     ("interventions", iv);
                                     ("verbose", PInt 0)]);
                     ("datafile", PStr datafile_path);
                     ("label", label)], inr sim);
                 (CMeth sim "run" [] [], inr u);
                 (CMeth sim "compute_fit" [] [], inr fit)]
                ++ (if rs then [] else [(CGetAttr fit "mismatch", inr v)])),
         inr (if rs then sim else v)).
Proof.
  intros oracle i label rs h Hno. unfold run_sim, getitem.
  cbv [bind ext truth ret]. cbv beta iota zeta.
  repeat match goal with
         | |- context [oracle ?h0 ?c] =>
             let v := fresh "v" in let Hv := fresh "Hv" in
             destruct (Hno h0 c) as [v Hv]; rewrite Hv; cbv beta iota
         end.
  destruct rs; cbv beta iota.
  - do 9 eexists. exists PNone. repeat rewrite <- app_assoc. reflexivity.
  - repeat match goal with
           | |- context [oracle ?h0 ?c] =>
               let v := fresh "v" in let Hv := fresh "Hv" in
               destruct (Hno h0 c) as [v Hv]; rewrite Hv; cbv beta iota
           end.
    do 10 eexists. repeat rewrite <- app_assoc. reflexivity.
Qed.


(** *** Symbolic execution of the top-level scripts *)

Lemma bind_assoc_at {A B C} (m : M A) (f : A -> M B) (g : B -> M C) h :
  bind (bind m f) g h = bind m (fun x => bind (f x) g) h.
Proof. unfold bind. destruct (m h) as [h1 [e|x]]; reflexivity. Qed.

Lemma bind_ret_at {A B} (x : A) (k : A -> M B) h : bind (ret x) k h = k x h.
Proof. reflexivity. Qed.

Lemma bind_ext_at {B} oracle h c v (k : pyval -> M B) :
  oracle h c = inr v -> bind (ext oracle c) k h = k v (app h [(c, inr v)]).
Proof. intro E. unfold bind, ext. rewrite E. reflexivity. Qed.

Lemma bind_getitem_dict_at {B} oracle d key v (k : pyval -> M B) h :
  dict_get d key = Some v -> bind (getitem oracle (PDict d) key) k h = k v h.
Proof. intro E. rewrite (getitem_dict oracle d key v E). reflexivity. Qed.

Lemma bind_getitem_dict_none_at {B} oracle d key (k : pyval -> M B) h :
  dict_get d key = None -> bind (getitem oracle (PDict d) key) k h = (h, inl (KeyError key)).
Proof. intro E. rewrite (getitem_dict_none oracle d key E). reflexivity. Qed.

Lemma bind_getitem_obj_at {B} oracle i key (k : pyval -> M B) h :
  bind (getitem oracle (PObj i) key) k h
  = bind (ext oracle (CGetItem (PObj i) (PStr key))) k h.
Proof. reflexivity. Qed.

(** One step of a computation run on a history: [special] answers the
    library calls fixed by the hypotheses at hand, any other call is
    answered by [no_raise]. *)
Ltac sym_step oracle Hno special :=
  match goal with
  | |- context [bind (bind ?m ?f) ?g ?h0] => rewrite (bind_assoc_at m f g h0)
  | |- context [bind (ret ?x) ?k ?h0] => rewrite (bind_ret_at x k h0)
  | |- context [bind (ext oracle ?c) ?k ?h0] =>
      first [ special h0 c k
            | let v := fresh "v" in let Hv := fresh "Hv" in
              destruct (Hno h0 c) as [v Hv];
              rewrite (bind_ext_at oracle h0 c v k Hv) ]
  | |- context [bind (getitem oracle (PDict ?d) ?key) ?k ?h0] =>
      first [ rewrite (bind_getitem_dict_at oracle d key _ k h0
                         ltac:(first [eassumption | reflexivity]))
            | rewrite (bind_getitem_dict_none_at oracle d key k h0 ltac:(assumption)) ]
  | |- context [bind (getitem oracle (PObj ?i) ?key) ?k ?h0] =>
      rewrite (bind_getitem_obj_at oracle i key k h0)
  | |- context [bind (truth oracle (PBool ?b)) ?k ?h0] =>
      change (truth oracle (PBool b)) with (@ret bool b)
  | |- context [call_kwargs [("func", ?f); ("iterkwargs", PDict [("seed", PRange ?n)])] ?kw] =>
      rewrite (call_kwargs_fresh f n kw) by (simpl; intuition discriminate)
  | |- context [make_study oracle ?cfg] => unfold make_study
  | |- context [run_workers oracle ?cfg] => unfold run_workers
  | |- context [run_sim oracle ?p ?l ?rs] => unfold run_sim
  | |- context [run_msim oracle ?f ?n ?l ?kw] => unfold run_msim
  | |- context [sim0_people_attr oracle ?m ?a] => unfold sim0_people_attr
  | |- context [plot_column oracle ?df ?col ?agg ?kw] => unfold plot_column
  | |- context [if ?b then _ else _] => destruct b
  end; cbv beta iota delta [db_name storage name n_workers n_trials].

(** The answers of [os.path.exists] and of [study.best_params]. *)
Ltac calib_answers oracle Hex Hbp h0 c k :=
  first [ rewrite (bind_ext_at oracle h0 c _ k (Hex h0))
        | rewrite (bind_ext_at oracle h0 c _ k (Hbp h0 _)) ].

(** The answer of [df.groupby('age')]. *)
Ltac zim_answers oracle Hgb h0 c k :=
  lazymatch c with
  | CMeth ?o "groupby" _ _ =>
      let i := fresh "i" in let Hi := fresh "Hi" in
      destruct (Hgb h0 o) as [i Hi];
      rewrite (bind_ext_at oracle h0 c _ k Hi)
  end.

Ltac run_main_calib oracle Hno Hex Hbp :=
  unfold main_calib;
  cbv [main_settings make_settings db_name storage name n_workers n_trials String.append];
  cbv beta iota zeta;
  repeat (sym_step oracle Hno ltac:(calib_answers oracle Hex Hbp));
  cbv [ret fst snd].

Lemma calib_oracle_no_raise best : no_raise (calib_oracle best).
Proof.
  intros h c. unfold calib_oracle.
  destruct c; try apply demo_oracle_no_raise.
  destruct (String.eqb attr "best_params"); [eexists; reflexivity |].
  apply demo_oracle_no_raise.
Qed.

(** At the top level of the calibration script the study is created (after
    the old database file, if there is one, is removed) before the workers
    are launched; the study whose [best_params] are read is then loaded from
    the same storage under the same name, and the script ends normally. *)
Theorem main_calib_study_lifecycle :
  forall oracle h (ex : bool) d b r,
    no_raise oracle ->
    (forall h', oracle h' (CCall "os.path.exists" [PStr "my-example-calibration.db"] [])
                = inr (PBool ex)) ->
    (forall h' o, oracle h' (CGetAttr o "best_params") = inr (PDict d)) ->
    dict_get d "beta" = Some b ->
    dict_get d "rel_death_prob" = Some r ->
    snd (main_calib oracle h) = inr tt /\
    exists t0 a1 a2 st w study rest,
      fst (main_calib oracle h) =
        app h ((CCall "sc.tic" [] [], inr t0)
               :: (CCall "os.path.exists" [PStr "my-example-calibration.db"] [],
                   inr (PBool ex))
               :: app (if ex
                       then [(CCall "os.remove" [PStr "my-example-calibration.db"] [],
                              inr a1);
                             (CCall "print" [PStr "Removed existing calibration ";
                                             PStr "my-example-calibration.db"] [],
                              inr a2)]
                       else [])
                  ((CCall "op.create_study" []
                      [("storage", PStr "sqlite:///my-example-calibration.db");
                       ("study_name", PStr "my-example-calibration")], inr st)
                   :: (CCall "sc.parallelize" [PFun "worker"; PInt 4] [], inr w)
                   :: (CCall "op.load_study" []
                         [("storage", PStr "sqlite:///my-example-calibration.db");
                          ("study_name", PStr "my-example-calibration")], inr study)
                   :: (CGetAttr study "best_params", inr (PDict d))
                   :: rest)).
Proof.
  intros oracle h ex d b r Hno Hex Hbp Hb Hr.
  run_main_calib oracle Hno Hex Hbp.
  all: split; [reflexivity |].
  - do 7 eexists. repeat rewrite <- app_assoc. simpl app. reflexivity.
  - eexists; exists PNone, PNone; do 4 eexists.
    repeat rewrite <- app_assoc. simpl app. reflexivity.
Qed.

(** The script's last two calls put the simulation run with the initial
    parameters (beta 0.015, rel_death_prob 1.0, labelled "Before
    calibration") and the one run with the study's [best_params] (labelled
    "After calibration") into one [cv.MultiSim], in that order, and plot it. *)
Theorem main_calib_plots_before_after :
  forall oracle h (ex : bool) d b r,
    no_raise oracle ->
    (forall h', oracle h' (CCall "os.path.exists" [PStr "my-example-calibration.db"] [])
                = inr (PBool ex)) ->
    (forall h' o, oracle h' (CGetAttr o "best_params") = inr (PDict d)) ->
    dict_get d "beta" = Some b ->
    dict_get d "rel_death_prob" = Some r ->
    exists rest iv1 iv2 before after m p,
      fst (main_calib oracle h) =
        app rest [(CCall "cv.MultiSim" [PList [before; after]] [], inr m);
                  (CMeth m "plot" [] [("to_plot", PList [PStr "cum_tests";
                                                        PStr "cum_diagnoses";
                                                        PStr "cum_deaths"])], inr p)] /\
      In (CCall "cv.Sim" []
            [("pars", PDict [("start_day", PStr "2020-02-01");
                             ("end_day", PStr "2020-04-11");
                             ("beta", PFloat (Qmake 15 1000));
                             ("rel_death_prob", PFloat (Qmake 1 1));
                             ("interventions", iv1);
                             ("verbose", PInt 0)]);
             ("datafile", PStr datafile_path);
             ("label", PStr "Before calibration")], inr before) rest /\
      In (CCall "cv.Sim" []
            [("pars", PDict [("start_day", PStr "2020-02-01");
                             ("end_day", PStr "2020-04-11");
                             ("beta", b);
                             ("rel_death_prob", r);
                             ("interventions", iv2);
                             ("verbose", PInt 0)]);
             ("datafile", PStr datafile_path);
             ("label", PStr "After calibration")], inr after) rest.
Proof.
  intros oracle h ex d b r Hno Hex Hbp Hb Hr.
  run_main_calib oracle Hno Hex Hbp.
  all: match goal with
       | |- context [app (app ?R [?x]) [?y]] =>
           exists R; rewrite <- (app_assoc R [x] [y])
       end.
  all: do 6 eexists; split; [reflexivity |].
  all: repeat rewrite <- app_assoc; simpl app.
  all: split; apply in_or_app; right; in_new.
Qed.

(** If the study's [best_params] has no key "beta", the script raises
    [KeyError('beta')] in the second [run_sim]: the simulation with the
    initial parameters has been run, but no [cv.MultiSim] is built. *)
Theorem main_calib_best_params_without_beta :
  forall oracle h (ex : bool) d,
    no_raise oracle ->
    (forall h', oracle h' (CCall "os.path.exists" [PStr "my-example-calibration.db"] [])
                = inr (PBool ex)) ->
    (forall h' o, oracle h' (CGetAttr o "best_params") = inr (PDict d)) ->
    dict_get d "beta" = None ->
    snd (main_calib oracle h) = inl (KeyError "beta") /\
    exists new iv before,
      fst (main_calib oracle h) = app h new /\
      In (CCall "cv.Sim" []
            [("pars", PDict [("start_day", PStr "2020-02-01");
                             ("end_day", PStr "2020-04-11");
                             ("beta", PFloat (Qmake 15 1000));
                             ("rel_death_prob", PFloat (Qmake 1 1));
                             ("interventions", iv);
                             ("verbose", PInt 0)]);
             ("datafile", PStr datafile_path);
             ("label", PStr "Before calibration")], inr before) new /\
      (forall args kw a, ~ In (CCall "cv.MultiSim" args kw, a) new).
Proof.
  intros oracle h ex d Hno Hex Hbp Hb.
  run_main_calib oracle Hno Hex Hbp.
  all: split; [reflexivity |].
  all: repeat rewrite <- app_assoc; simpl app.
  all: do 3 eexists; split; [reflexivity |].
  all: split; [in_new |].
  all: intros args kw a Hin; simpl in Hin;
       repeat (destruct Hin as [Hin | Hin]; [discriminate Hin |]); exact Hin.
Qed.

(** The scenario script runs to its end without a keyword clash, provided
    [df.groupby('age')] gives a library object.  Each of the three scenarios
    parallelizes the scenario function with its own keyword arguments, the
    resulting sims go into the [cv.MultiSim] labelled with the scenario's
    name, and the three MultiSims are merged in the order baseline,
    vulnerable, high contacts. *)
Theorem main_zim_scenarios_merged :
  forall oracle h,
    no_raise oracle ->
    (forall h' o, exists i, oracle h' (CMeth o "groupby" [PStr "age"] []) = inr (PObj i)) ->
    snd (main_zim oracle h) = inr tt /\
    exists new s1 s2 s3 m1 m2 m3 mg,
      fst (main_zim oracle h) = app h new /\
      In (CCall "sc.parallelize" []
            [("func", PFun "who.get_vaccine_schedule_scenario_sim");
             ("iterkwargs", PDict [("seed", PRange 2)]);
             ("location", PStr "ZIM"); ("end_date", PStr "2021-06-30")], inr s1) new /\
      In (CCall "cv.MultiSim" [s1] [("label", PStr "baseline vaccination");
                                    ("keep_people", PBool true)], inr m1) new /\
      In (CCall "sc.parallelize" []
            [("func", PFun "who.get_vaccine_schedule_scenario_sim");
             ("iterkwargs", PDict [("seed", PRange 2)]);
             ("location", PStr "ZIM"); ("end_date", PStr "2021-06-30");
             ("people_per_day", PInt 10000);
             ("vaccine_sequence_function", PFun "get_vaccine_sequence_strategy");
             ("strat_string", PStr "vulnerable")], inr s2) new /\
      In (CCall "cv.MultiSim" [s2] [("label", PStr "vulnerable");
                                    ("keep_people", PBool true)], inr m2) new /\
      In (CCall "sc.parallelize" []
            [("func", PFun "who.get_vaccine_schedule_scenario_sim");
             ("iterkwargs", PDict [("seed", PRange 2)]);
             ("location", PStr "ZIM"); ("end_date", PStr "2021-06-30");
             ("people_per_day", PInt 10000);
             ("vaccine_sequence_function", PFun "get_vaccine_sequence_strategy");
             ("strat_string", PStr "hcontacts")], inr s3) new /\
      In (CCall "cv.MultiSim" [s3] [("label", PStr "high contacts");
                                    ("keep_people", PBool true)], inr m3) new /\
      In (CCall "cv.MultiSim.merge" [PList [m1; m2; m3]] [("base", PBool true)],
          inr mg) new.
Proof.
  intros oracle h Hno Hgb.
  unfold main_zim. cbv zeta.
  repeat (sym_step oracle Hno ltac:(zim_answers oracle Hgb)).
  cbv [ret fst snd].
  split; [reflexivity |].
  repeat rewrite <- app_assoc; simpl app.
  do 8 eexists; split; [reflexivity |].
  repeat split; in_new.
Qed.

(** *** Witnesses *)

Lemma run_trial_passes_suggestions_unchecked_witness :
  demo_oracle [] (CMeth (PObj 0) "suggest_uniform"
                    [PStr "beta"; PFloat (Qmake 5 1000); PFloat (Qmake 20 1000)] [])
    = inr (PFloat (Qmake 5 1000)) /\
  run_trial demo_oracle (PObj 0) [] =
    run_sim demo_oracle (PDict [("beta", PFloat (Qmake 5 1000));
                                ("rel_death_prob", PFloat (Qmake 5 10))])
      PNone (PBool false)
      [(CMeth (PObj 0) "suggest_uniform"
          [PStr "beta"; PFloat (Qmake 5 1000); PFloat (Qmake 20 1000)] [],
        inr (PFloat (Qmake 5 1000)));
       (CMeth (PObj 0) "suggest_uniform"
          [PStr "rel_death_prob"; PFloat (Qmake 5 10); PFloat (Qmake 3 1)] [],
        inr (PFloat (Qmake 5 10)))].
Proof.
  split; [reflexivity |].
  apply (run_trial_passes_suggestions_unchecked demo_oracle (PObj 0) []
           (PFloat (Qmake 5 1000)) (PFloat (Qmake 5 10))); reflexivity.
Defined.

Lemma run_sim_rejects_non_mapping_witness :
  exists msg, run_sim demo_oracle PNone PNone (PBool false) [] = ([], inl (TypeError msg)).
Proof.
  apply (run_sim_rejects_non_mapping demo_oracle PNone PNone (PBool false) []);
    intros ? Heq; discriminate Heq.
Defined.

Lemma run_sim_library_mapping_reads_twice_witness :
  no_raise demo_oracle /\
  exists b r p b' r' iv sim u fit v,
    run_sim demo_oracle (PObj 7) PNone (PBool false) [] =
      (app [] ([(CGetItem (PObj 7) (PStr "beta"), inr b);
                (CGetItem (PObj 7) (PStr "rel_death_prob"), inr r);
                (CCall "print" [PStr "Running sim for beta="; b;
                                PStr ", rel_death_prob="; r] [], inr p);
                (CGetItem (PObj 7) (PStr "beta"), inr b');
                (CGetItem (PObj 7) (PStr "rel_death_prob"), inr r');
                (CCall "cv.test_num" [] [("daily_tests", PStr "data")], inr iv);
                (CCall "cv.Sim" []
                   [("pars", PDict [("start_day", PStr "2020-02-01");
                                    ("end_day", PStr "2020-04-11");
                                    ("beta", b');
                                    ("rel_death_prob", r');
                                    ("interventions", iv);
                                    ("verbose", PInt 0)]);
                    ("datafile", PStr datafile_path);
                    ("label", PNone)], inr sim);
                (CMeth sim "run" [] [], inr u);
                (CMeth sim "compute_fit" [] [], inr fit)]
               ++ (if false then [] else [(CGetAttr fit "mismatch", inr v)])),
       inr (if false then sim else v)).
Proof.
  split; [apply demo_oracle_no_raise |].
  apply (run_sim_library_mapping_reads_twice demo_oracle 7 PNone false []).
  apply demo_oracle_no_raise.
Defined.

Lemma main_calib_study_lifecycle_witness :
  snd (main_calib (calib_oracle demo_best) []) = inr tt /\
  exists t0 a1 a2 st w study rest,
    fst (main_calib (calib_oracle demo_best) []) =
      app [] ((CCall "sc.tic" [] [], inr t0)
              :: (CCall "os.path.exists" [PStr "my-example-calibration.db"] [],
                  inr (PBool true))
              :: app (if true
                      then [(CCall "os.remove" [PStr "my-example-calibration.db"] [],
                             inr a1);
                            (CCall "print" [PStr "Removed existing calibration ";
                                            PStr "my-example-calibration.db"] [],
                             inr a2)]
                      else [])
                 ((CCall "op.create_study" []
                     [("storage", PStr "sqlite:///my-example-calibration.db");
                      ("study_name", PStr "my-example-calibration")], inr st)
                  :: (CCall "sc.parallelize" [PFun "worker"; PInt 4] [], inr w)
                  :: (CCall "op.load_study" []
                        [("storage", PStr "sqlite:///my-example-calibration.db");
                         ("study_name", PStr "my-example-calibration")], inr study)
                  :: (CGetAttr study "best_params", inr (PDict demo_best))
                  :: rest)).
Proof.
  apply (main_calib_study_lifecycle (calib_oracle demo_best) [] true demo_best
           (PFloat (Qmake 12 1000)) (PFloat (Qmake 3 2)));
    [apply calib_oracle_no_raise | intro; reflexivity | intros; reflexivity
    | reflexivity | reflexivity].
Defined.

Lemma main_calib_plots_before_after_witness :
  exists rest iv1 iv2 before after m p,
    fst (main_calib (calib_oracle demo_best) []) =
      app rest [(CCall "cv.MultiSim" [PList [before; after]] [], inr m);
                (CMeth m "plot" [] [("to_plot", PList [PStr "cum_tests";
                                                      PStr "cum_diagnoses";
                                                      PStr "cum_deaths"])], inr p)] /\
    In (CCall "cv.Sim" []
          [("pars", PDict [("start_day", PStr "2020-02-01");
                           ("end_day", PStr "2020-04-11");
                           ("beta", PFloat (Qmake 15 1000));
                           ("rel_death_prob", PFloat (Qmake 1 1));
                           ("interventions", iv1);
                           ("verbose", PInt 0)]);
           ("datafile", PStr datafile_path);
           ("label", PStr "Before calibration")], inr before) rest /\
    In (CCall "cv.Sim" []
          [("pars", PDict [("start_day", PStr "2020-02-01");
                           ("end_day", PStr "2020-04-11");
                           ("beta", PFloat (Qmake 12 1000));
                           ("rel_death_prob", PFloat (Qmake 3 2));
                           ("interventions", iv2);
                           ("verbose", PInt 0)]);
           ("datafile", PStr datafile_path);
           ("label", PStr "After calibration")], inr after) rest.
Proof.
  apply (main_calib_plots_before_after (calib_oracle demo_best) [] true demo_best
           (PFloat (Qmake 12 1000)) (PFloat (Qmake 3 2)));
    [apply calib_oracle_no_raise | intro; reflexivity | intros; reflexivity
    | reflexivity | reflexivity].
Defined.

Lemma main_calib_best_params_without_beta_witness :
  snd (main_calib (calib_oracle [("rel_death_prob", PFloat (Qmake 3 2))]) [])
    = inl (KeyError "beta") /\
  exists new iv before,
    fst (main_calib (calib_oracle [("rel_death_prob", PFloat (Qmake 3 2))]) []) = app [] new /\
    In (CCall "cv.Sim" []
          [("pars", PDict [("start_day", PStr "2020-02-01");
                           ("end_day", PStr "2020-04-11");
                           ("beta", PFloat (Qmake 15 1000));
                           ("rel_death_prob", PFloat (Qmake 1 1));
                           ("interventions", iv);
                           ("verbose", PInt 0)]);
           ("datafile", PStr datafile_path);
           ("label", PStr "Before calibration")], inr before) new /\
    (forall args kw a, ~ In (CCall "cv.MultiSim" args kw, a) new).
Proof.
  apply (main_calib_best_params_without_beta
           (calib_oracle [("rel_death_prob", PFloat (Qmake 3 2))]) [] true
           [("rel_death_prob", PFloat (Qmake 3 2))]);
    [apply calib_oracle_no_raise | intro; reflexivity | intros; reflexivity
    | reflexivity].
Defined.

Lemma main_zim_scenarios_merged_witness :
  snd (main_zim demo_oracle []) = inr tt /\
  exists new s1 s2 s3 m1 m2 m3 mg,
    fst (main_zim demo_oracle []) = app [] new /\
    In (CCall "sc.parallelize" []
          [("func", PFun "who.get_vaccine_schedule_scenario_sim");
           ("iterkwargs", PDict [("seed", PRange 2)]);
           ("location", PStr "ZIM"); ("end_date", PStr "2021-06-30")], inr s1) new /\
    In (CCall "cv.MultiSim" [s1] [("label", PStr "baseline vaccination");
                                  ("keep_people", PBool true)], inr m1) new /\
    In (CCall "sc.parallelize" []
          [("func", PFun "who.get_vaccine_schedule_scenario_sim");
           ("iterkwargs", PDict [("seed", PRange 2)]);
           ("location", PStr "ZIM"); ("end_date", PStr "2021-06-30");
           ("people_per_day", PInt 10000);
           ("vaccine_sequence_function", PFun "get_vaccine_sequence_strategy");
           ("strat_string", PStr "vulnerable")], inr s2) new /\
    In (CCall "cv.MultiSim" [s2] [("label", PStr "vulnerable");
                                  ("keep_people", PBool true)], inr m2) new /\
    In (CCall "sc.parallelize" []
          [("func", PFun "who.get_vaccine_schedule_scenario_sim");
           ("iterkwargs", PDict [("seed", PRange 2)]);
           ("location", PStr "ZIM"); ("end_date", PStr "2021-06-30");
           ("people_per_day", PInt 10000);
           ("vaccine_sequence_function", PFun "get_vaccine_sequence_strategy");
           ("strat_string", PStr "hcontacts")], inr s3) new /\
    In (CCall "cv.MultiSim" [s3] [("label", PStr "high contacts");
                                  ("keep_people", PBool true)], inr m3) new /\
    In (CCall "cv.MultiSim.merge" [PList [m1; m2; m3]] [("base", PBool true)],
        inr mg) new.
Proof.
  apply (main_zim_scenarios_merged demo_oracle []);
    [apply demo_oracle_no_raise | intros; eexists; reflexivity].
Defined.
